(** * bqplot.scales: the scale configuration classes

    [bqplot/scales.py] declares eight widget classes ([Scale] and its seven
    concrete variants).  Each class body is a list of trait declarations
    ([name = TraitType(default, sync=..., allow_none=...)]); the behaviour of
    a scale object -- construction from keyword arguments, attribute
    assignment with validation, and the state sent to the front-end -- is
    the behaviour these declarations have under the trait machinery of
    [IPython.utils.traitlets] and [IPython.html.widgets.Widget] (IPython 3:
    the file passes [allow_none] to [Float] and imports the widgets from
    [IPython.html]).

    This development embeds
    - the Python values a trait can be given ([pyval]),
    - the class table of [scales.py], declaration by declaration,
    - attribute lookup along the inheritance chain ([mro], [traits],
      [all_traits]),
    - trait validation and assignment ([validate], [__set__], [setattr]),
    - object construction ([construct]) and the synchronised state
      ([get_state]),
    and proves the properties of the scale configuration model over it.

    The configuration model speaks of [construct], [update], [serialize]
    and [defaults]; in the code these are a call of the class with keyword
    arguments ([construct]), an attribute assignment ([setattr]), the state
    the widget sends ([get_state]) and the declared defaults ([defaults]).
    Its error [InvalidParameterKind] is the [TraitError] of the trait
    library.

    What is not in [scales.py] and not fixed by the trait library is a
    parameter ([environment]): the [Date] trait of [bqplot.traits], the
    import of classes by name, the identity of objects, and what [Widget]
    and its base classes declare above [Scale] -- their traits and their
    read-only properties.  The special attributes of the interpreter's
    object model ([__dict__], [__class__]) are not modelled. *)

From Stdlib Require Import ZArith String List Bool Ascii SpecFloat Lia.
From stdpp Require Import base option gmap strings list fin_maps.

Local Open Scope string_scope.
Local Open Scope Z_scope.
Set Warnings "-register-all".

(** ** Python values *)

(** The values that reach a trait of a scale.  A float is an IEEE-754
    binary64 number ([spec_float] at precision 53); a byte string is a list
    of 8-bit characters; a class object is known by its name and the names
    of the classes it derives from; [PObject] stands for any other object
    that is no container and no widget, known by its identity only. *)
Inductive pyval : Type :=
  | PNone
  | PBool (b : bool)
  | PInt (z : Z)
  | PFloat (f : spec_float)
  | PStr (s : string)
  | PBytes (bs : list ascii)
  | PList (l : list pyval)
  | PTuple (l : list pyval)
  | PDatetime (us : Z)
  | PClass (name : string) (bases : list string)
  | PObject (id : positive).

(** The exceptions an assignment can raise: [TraitError] from a trait that
    refuses a value, [OverflowError] from [float] on a large int,
    [AttributeError] from a property without setter, and what the import of
    a class by name raises ([ImportError], or [ValueError] on an empty
    name). *)
Inductive exn : Type :=
  | TraitError
  | OverflowError
  | ImportError
  | ValueError
  | AttributeError.

Inductive outcome (A : Type) : Type :=
  | Returned (a : A)
  | Raised (e : exn).
Arguments Returned {A} a.
Arguments Raised {A} e.

Definition is_None (v : pyval) : bool :=
  match v with PNone => true | _ => false end.

(** *** Numbers *)

Definition prec : Z := 53.
Definition emax : Z := 1024.

(** [float(z)] on an int: round to nearest even; an int beyond the largest
    double raises [OverflowError]. *)
Definition float_of_int (z : Z) : outcome pyval :=
  match binary_normalize prec emax z 0 false with
  | S754_infinity _ => Raised OverflowError
  | f => Returned (PFloat f)
  end.

(** Exact comparison of an int with a float, as Python's [==] does it. *)
Definition int_eq_float (z : Z) (f : spec_float) : bool :=
  match f with
  | S754_zero _ => z =? 0
  | S754_finite s m e =>
      let sm := if s then Z.neg m else Z.pos m in
      if 0 <=? e then z =? sm * 2 ^ e else sm =? z * 2 ^ (- e)
  | _ => false
  end.

(** *** Equality *)

(** The same float, bit for bit. *)
Definition same_float (x y : spec_float) : bool :=
  match x, y with
  | S754_zero a, S754_zero b => Bool.eqb a b
  | S754_infinity a, S754_infinity b => Bool.eqb a b
  | S754_nan, S754_nan => true
  | S754_finite a m e, S754_finite b n f =>
      Bool.eqb a b && Pos.eqb m n && Z.eqb e f
  | _, _ => false
  end.

(** The same value, constructor for constructor: what two names of one
    object show. *)
Fixpoint same_value (a b : pyval) : bool :=
  let fix same_seq (l1 l2 : list pyval) : bool :=
    match l1, l2 with
    | [], [] => true
    | x :: xs, y :: ys => same_value x y && same_seq xs ys
    | _, _ => false
    end in
  match a, b with
  | PNone, PNone => true
  | PBool x, PBool y => Bool.eqb x y
  | PInt x, PInt y => x =? y
  | PFloat x, PFloat y => same_float x y
  | PStr x, PStr y => String.eqb x y
  | PBytes x, PBytes y => bool_decide (x = y)
  | PList x, PList y => same_seq x y
  | PTuple x, PTuple y => same_seq x y
  | PDatetime x, PDatetime y => x =? y
  | PClass x bx, PClass y by_ => String.eqb x y && bool_decide (bx = by_)
  | PObject x, PObject y => Pos.eqb x y
  | _, _ => false
  end.

(** Python 3's [==] on the modelled values: bools are ints, ints and floats
    compare by value, text and byte strings are never equal, a NaN is
    different from everything, an opaque object
    is equal to itself only, and sequences compare element by element,
    where two elements that are one object count as equal whatever their
    comparison gives ([same] tells whether two elements are one object). *)
Fixpoint py_eq (same : pyval -> pyval -> bool) (a b : pyval) : bool :=
  let fix seq_eq (l1 l2 : list pyval) : bool :=
    match l1, l2 with
    | [], [] => true
    | x :: xs, y :: ys => (py_eq same x y || same x y) && seq_eq xs ys
    | _, _ => false
    end in
  match a, b with
  | PNone, PNone => true
  | PBool x, PBool y => Bool.eqb x y
  | PBool x, PInt y => Z.b2z x =? y
  | PInt x, PBool y => x =? Z.b2z y
  | PInt x, PInt y => x =? y
  | PBool x, PFloat y => int_eq_float (Z.b2z x) y
  | PFloat x, PBool y => int_eq_float (Z.b2z y) x
  | PInt x, PFloat y => int_eq_float x y
  | PFloat x, PInt y => int_eq_float y x
  | PFloat x, PFloat y => SFeqb x y
  | PStr x, PStr y => String.eqb x y
  | PBytes x, PBytes y => bool_decide (x = y)
  | PList x, PList y => seq_eq x y
  | PTuple x, PTuple y => seq_eq x y
  | PDatetime x, PDatetime y => x =? y
  | PClass x _, PClass y _ => String.eqb x y
  | PObject x, PObject y => Pos.eqb x y
  | _, _ => false
  end.

(** [issubclass(value, klass)] for class objects: [klass] is the class
    itself or one of its ancestors. *)
Definition issubclass (value klass : pyval) : bool :=
  match value, klass with
  | PClass n bs, PClass k _ => existsb (String.eqb k) (n :: bs)
  | _, _ => false
  end.

(** [bytes.decode('ascii', 'strict')]. *)
Definition decode_ascii (bs : list ascii) : option string :=
  if forallb (fun b => (N_of_ascii b <? 128)%N) bs
  then Some (string_of_list_ascii bs)
  else None.

(** ** Trait declarations *)

(** The trait types [scales.py] imports: [Unicode], [List], [Enum], [Float],
    [Bool], [Type] from [IPython.utils.traitlets], and [Date] from
    [bqplot.traits].  [Enum] carries its admissible values, [Type_] the
    class its values must derive from.  [Library] stands for any other
    trait type of the library ([Int], [Instance], [Dict], ...), which only
    the classes above [Scale] use: it is given by its [validate] method. *)
Inductive trait_type : Type :=
  | Float
  | Unicode
  | Bool
  | Enum (values : list pyval)
  | List
  | Type_ (klass : pyval)
  | Date
  | Library (validate : pyval -> outcome pyval).

(** One declaration [name = T(default, sync=s, allow_none=a)] of a class
    body, without its name. *)
Record trait : Type := Trait {
  trait_kind : trait_type;
  default_value : pyval;
  allow_none : bool;
  sync : bool
}.

(** [Type(C, sync=s)]: with only a default given, the default is also the
    class every value must derive from; [Type] allows [None] unless told
    otherwise. *)
Definition Type_decl (c : pyval) (s : bool) : trait :=
  Trait (Type_ c) c true s.
(** [Bool(b, sync=s)], [Unicode(u, sync=s)]: neither allows [None] unless
    told so. *)
Definition Bool_decl (b : bool) (s : bool) : trait :=
  Trait Bool (PBool b) false s.
Definition Unicode_decl (u : string) (s : bool) : trait :=
  Trait Unicode (PStr u) false s.
(** [T(default_value=None, sync=s, allow_none=True)] for [T] one of [Float],
    [Date], [Unicode]. *)
Definition optional_decl (t : trait_type) (s : bool) : trait :=
  Trait t PNone true s.
(** [List(sync=s)]: the default is a fresh empty list; [List] allows [None]
    unless told otherwise. *)
Definition List_decl (s : bool) : trait :=
  Trait List (PList []) true s.
(** [Enum(values, default_value=d, sync=s)]; [Enum] allows [None] unless
    told otherwise. *)
Definition Enum_decl (values : list pyval) (d : pyval) (s : bool) : trait :=
  Trait (Enum values) d true s.

(** ** The environment *)

(** What lies outside [scales.py] and is not fixed by the trait library:
    - the [Date] trait type of [bqplot.traits]: its [validate] method
      ([None] when it raises [TraitError]), the serialiser it registers,
      and the classes it derives from;
    - the import of a class from its dotted name, which returns the class
      or raises;
    - whether two values are one object;
    - the traits that [Widget] and its base classes declare, and their
      properties without setter, each with the value it reads. *)
Class environment : Type := {
  Date_validate : pyval -> option pyval;
  Date_to_json : pyval -> pyval;
  Date_bases : list string;
  import_item : string -> outcome pyval;
  identical : pyval -> pyval -> bool;
  Widget_traits : gmap string trait;
  Widget_properties : gmap string pyval
}.

(** [x is y]: one object, and so one value. *)
Definition is_ `{environment} (x y : pyval) : bool :=
  identical x y && same_value x y.

(** The two class objects the source passes to [Type]: the trait class
    [Float] of the library and the trait class [Date] of [bqplot.traits]. *)
Definition Float_class : pyval := PClass "Float" ["TraitType"; "object"].
Definition Date_class `{environment} : pyval := PClass "Date" Date_bases.

(** ** The class table of scales.py *)

Inductive scale_class : Type :=
  | Scale
  | LinearScale
  | LogScale
  | DateScale
  | OrdinalScale
  | ColorScale
  | DateColorScale
  | OrdinalColorScale.

#[global] Instance scale_class_eq_dec : EqDecision scale_class.
Proof. solve_decision. Defined.

(** The class named in the [class C(B)] header, among the classes of the
    file.  [Scale] derives from [Widget], which is outside the file: what
    [Widget] and its base classes declare is part of the environment
    ([Widget_traits], [Widget_properties]) and is joined in by [all_traits],
    [setattr], [getattr] and [get_state]. *)
Definition base (c : scale_class) : option scale_class :=
  match c with
  | Scale => None
  | LinearScale | LogScale | DateScale | OrdinalScale | ColorScale => Some Scale
  | DateColorScale | OrdinalColorScale => Some ColorScale
  end.


Section ClassTable.

Context {env : environment}.

(** The trait declarations of each class body, in source order: [Scale]
    (lines 58-62), [LinearScale] (82-86), [LogScale] (105-109), [DateScale]
    (129-135), [OrdinalScale] (152-155), [ColorScale] (176-184),
    [DateColorScale] (203-209), [OrdinalColorScale] (226-229). *)
Definition class_body (c : scale_class) : list (string * trait) :=
  match c with
  | Scale =>
      [ ("domain_class", Type_decl Float_class false);
        ("reverse", Bool_decl false true);
        ("allow_padding", Bool_decl true true);
        ("_view_name", Unicode_decl "Scale" true);
        ("_model_name", Unicode_decl "ScaleModel" true) ]
  | LinearScale =>
      [ ("min", optional_decl Float true);
        ("max", optional_decl Float true);
        ("scale_range_type", Unicode_decl "numerical" true);
        ("_view_name", Unicode_decl "LinearScale" true);
        ("_model_name", Unicode_decl "LinearScaleModel" true) ]
  | LogScale =>
      [ ("min", optional_decl Float true);
        ("max", optional_decl Float true);
        ("scale_range_type", Unicode_decl "numerical" true);
        ("_view_name", Unicode_decl "LogScale" true);
        ("_model_name", Unicode_decl "LogScaleModel" true) ]
  | DateScale =>
      [ ("domain_class", Type_decl Date_class false);
        ("min", optional_decl Date true);
        ("max", optional_decl Date true);
        ("date_format", Unicode_decl "" true);
        ("scale_range_type", Unicode_decl "numerical" true);
        ("_view_name", Unicode_decl "DateScale" true);
        ("_model_name", Unicode_decl "DateScaleModel" true) ]
  | OrdinalScale =>
      [ ("domain", List_decl true);
        ("scale_range_type", Unicode_decl "numerical" true);
        ("_view_name", Unicode_decl "OrdinalScale" true);
        ("_model_name", Unicode_decl "OrdinalScaleModel" true) ]
  | ColorScale =>
      [ ("scale_type", Enum_decl [PStr "linear"] (PStr "linear") true);
        ("colors", List_decl true);
        ("min", optional_decl Float true);
        ("max", optional_decl Float true);
        ("mid", optional_decl Float true);
        ("scheme", Unicode_decl "RdYlGn" true);
        ("scale_range_type", Unicode_decl "Color" true);
        ("_view_name", Unicode_decl "LinearColorScale" true);
        ("_model_name", Unicode_decl "LinearColorScaleModel" true) ]
  | DateColorScale =>
      [ ("min", optional_decl Date true);
        ("max", optional_decl Date true);
        ("mid", optional_decl Unicode true);
        ("date_format", Unicode_decl "" true);
        ("scale_range_type", Unicode_decl "Color" true);
        ("_view_name", Unicode_decl "DateColorScale" true);
        ("_model_name", Unicode_decl "DateColorScaleModel" true) ]
  | OrdinalColorScale =>
      [ ("domain", List_decl true);
        ("scale_range_type", Unicode_decl "Color" true);
        ("_view_name", Unicode_decl "OrdinalColorScale" true);
        ("_model_name", Unicode_decl "OrdinalScaleModel" true) ]
  end.

(** The namespace of one class: a later assignment to a name replaces an
    earlier one. *)
Definition class_dict (c : scale_class) : gmap string trait :=
  foldl (fun d '(name, t) => <[name := t]> d) ∅ (class_body c).

(** The class followed by its ancestors inside the file. *)
Fixpoint ancestors (fuel : nat) (c : scale_class) : list scale_class :=
  c :: match fuel, base c with
       | S fuel', Some b => ancestors fuel' b
       | _, _ => []
       end.

Definition mro (c : scale_class) : list scale_class := ancestors 8 c.

(** The traits of a class that [scales.py] declares: a name is resolved in
    the class itself first, then in its ancestors inside the file. *)
Definition traits (c : scale_class) : gmap string trait :=
  foldr (fun k inherited => class_dict k ∪ inherited) ∅ (mro c).

(** All traits of a class: those of [scales.py] first, then those of
    [Widget] and its base classes. *)
Definition all_traits (c : scale_class) : gmap string trait :=
  traits c ∪ Widget_traits.

End ClassTable.

(** The class attributes that are not traits: [Scale] sets
    [_ipython_display_] to [None], and every class inherits it. *)
Definition class_attributes : gmap string pyval :=
  {[ "_ipython_display_" := PNone ]}.

(** The seven concrete variants. *)
Definition variants : list scale_class :=
  [LinearScale; LogScale; DateScale; OrdinalScale;
   ColorScale; DateColorScale; OrdinalColorScale].

(** The range-type tag of each variant family. *)
Definition range_tag (c : scale_class) : string :=
  match c with
  | ColorScale | DateColorScale | OrdinalColorScale => "Color"
  | _ => "numerical"
  end.

(** ** Scale objects *)

(** The state of one scale object: its class, the values of its traits
    ([_trait_values]), the attributes assigned to it that are not traits
    (its instance dictionary), whether its comm to the front-end is open,
    and the names whose change has been handed to the synchronisation layer
    since the comm was opened, oldest first. *)
Record config : Type := Config {
  cls : scale_class;
  trait_values : gmap string pyval;
  instance_dict : gmap string pyval;
  comm : bool;
  dirty : list string
}.

Definition set_trait_value (name : string) (v : pyval) (o : config) : config :=
  Config (cls o) (<[name := v]> (trait_values o)) (instance_dict o)
         (comm o) (dirty o).

Definition set_instance_attr (name : string) (v : pyval) (o : config) : config :=
  Config (cls o) (trait_values o) (<[name := v]> (instance_dict o))
         (comm o) (dirty o).

Definition mark_dirty (name : string) (o : config) : config :=
  Config (cls o) (trait_values o) (instance_dict o) (comm o)
         (dirty o ++ [name]).

Definition open_comm (o : config) : config :=
  Config (cls o) (trait_values o) (instance_dict o) true (dirty o).

(** A method call on an object either returns or raises; in both cases the
    object it ran on lives on in the state it was left in. *)
Definition M (A : Type) : Type := config -> outcome A * config.

Definition ret {A} (a : A) : M A := fun o => (Returned a, o).
Definition bind {A B} (m : M A) (k : A -> M B) : M B :=
  fun o => match m o with
           | (Returned a, o') => k a o'
           | (Raised e, o') => (Raised e, o')
           end.
Definition get : M config := fun o => (Returned o, o).
Definition modify (f : config -> config) : M unit := fun o => (Returned tt, f o).
Definition lift {A} (r : outcome A) : M A := fun o => (r, o).

Notation "x <- m ;; k" := (bind m (fun x => k))
  (at level 100, m at next level, right associativity).
Notation "m ;;; k" := (bind m (fun _ => k))
  (at level 100, right associativity).

(** [Widget._trait_to_json]: lists and tuples become lists, element by
    element; any other value of [pyval] is passed on as it is. *)
Fixpoint _trait_to_json (x : pyval) : pyval :=
  match x with
  | PList l | PTuple l => PList (List.map _trait_to_json l)
  | _ => x
  end.


Section Traitlets.

Context {env : environment}.

(** [TraitType.validate] of each trait type.  [Enum] tests [value in
    values], which takes an element that is the value itself or equal to
    it; [Type] first imports a class given by name, turning an
    [ImportError] into a [TraitError] and letting any other exception
    pass. *)
Definition validate (t : trait_type) (value : pyval) : outcome pyval :=
  match t with
  | Float =>
      match value with
      | PFloat _ => Returned value
      | PInt z => float_of_int z
      | PBool b => float_of_int (Z.b2z b)
      | _ => Raised TraitError
      end
  | Unicode =>
      match value with
      | PStr _ => Returned value
      | PBytes bs =>
          match decode_ascii bs with
          | Some s => Returned (PStr s)
          | None => Raised TraitError
          end
      | _ => Raised TraitError
      end
  | Bool =>
      match value with
      | PBool _ => Returned value
      | _ => Raised TraitError
      end
  | Enum values =>
      if existsb (fun x => py_eq is_ x value || is_ x value) values
      then Returned value else Raised TraitError
  | List =>
      match value with
      | PList _ => Returned value
      | PTuple l => Returned (PList l)
      | _ => Raised TraitError
      end
  | Type_ klass =>
      let check c :=
        if issubclass c klass then Returned c else Raised TraitError in
      match value with
      | PStr s =>
          match import_item s with
          | Returned c => check c
          | Raised ImportError => Raised TraitError
          | Raised e => Raised e
          end
      | _ => check value
      end
  | Date =>
      match Date_validate value with
      | Some d => Returned d
      | None => Raised TraitError
      end
  | Library validate => validate value
  end.

(** [TraitType._validate]: [None] passes when the declaration allows it. *)
Definition _validate (t : trait) (value : pyval) : outcome pyval :=
  if is_None value && allow_none t then Returned value
  else validate (trait_kind t) value.

(** [Widget._notify_trait]: a changed trait is sent to the front-end when
    the comm is open and the trait is one of the synchronised keys. *)
Definition _notify_trait (name : string) (t : trait) : M unit :=
  o <- get ;;
  if comm o && sync t then modify (mark_dirty name) else ret tt.

(** [TraitType.__set__]: validate, store, and notify unless the stored
    value compares equal to the one it replaces ([None] where the object
    had no value under the name). *)
Definition __set__ (name : string) (t : trait) (value : pyval) : M unit :=
  new_value <- lift (_validate t value) ;;
  o <- get ;;
  let silent :=
    match trait_values o !! name with
    | Some old_value => py_eq is_ old_value new_value
    | None => py_eq is_ PNone new_value
    end in
  modify (set_trait_value name new_value) ;;;
  if silent then ret tt else _notify_trait name t.

(** [obj.name = value]: a trait of the class -- declared in [scales.py] or
    above -- handles the assignment; a property without setter refuses it
    with [AttributeError]; any other name lands in the instance
    dictionary. *)
Definition setattr (name : string) (value : pyval) : M unit :=
  o <- get ;;
  match all_traits (cls o) !! name with
  | Some t => __set__ name t value
  | None =>
      match Widget_properties !! name with
      | Some _ => lift (Raised AttributeError)
      | None => modify (set_instance_attr name value)
      end
  end.

(** [getattr(obj, name)]: a trait or a property first, then the instance
    dictionary, then the plain attributes of the class, of which
    [scales.py] sets one (the methods [Widget] defines are not among
    them); [None] stands for [AttributeError]. *)
Definition getattr (o : config) (name : string) : option pyval :=
  match all_traits (cls o) !! name with
  | Some _ => trait_values o !! name
  | None =>
      match Widget_properties !! name with
      | Some v => Some v
      | None =>
          match instance_dict o !! name with
          | Some v => Some v
          | None => class_attributes !! name
          end
      end
  end.

(** The value set of a class before any assignment: the defaults that
    [scales.py] declares for it. *)
Definition defaults (c : scale_class) : gmap string pyval :=
  default_value <$> traits c.

(** The object [__new__] hands to [__init__]: every trait at its default,
    no comm yet. *)
Definition new (c : scale_class) : config :=
  Config c (default_value <$> all_traits c) ∅ false [].

(** [HasTraits.__init__]: each keyword is assigned in turn. *)
Fixpoint setattrs (kwargs : list (string * pyval)) : M unit :=
  match kwargs with
  | [] => ret tt
  | (name, value) :: rest => setattr name value ;;; setattrs rest
  end.

(** [Widget.__init__]: the keyword [model_id] is taken out for the comm,
    the other keywords are assigned, then the comm is opened, which sends
    the whole state once.  The keywords are assigned in the order of the
    list. *)
Definition __init__ (kwargs : list (string * pyval)) : M unit :=
  setattrs (filter (fun kv => kv.1 <> "model_id") kwargs) ;;;
  modify open_comm.

(** A call of the class with keyword arguments: the object when [__init__]
    returns, the exception otherwise. *)
Definition construct (c : scale_class) (kwargs : list (string * pyval))
  : outcome config :=
  match __init__ kwargs (new c) with
  | (Returned _, o) => Returned o
  | (Raised e, _) => Raised e
  end.

(** The serialiser of a trait: the one [Date] registers, the widget's
    own otherwise. *)
Definition to_json (t : trait) (value : pyval) : pyval :=
  match trait_kind t with
  | Date => Date_to_json value
  | _ => _trait_to_json value
  end.

(** [Widget.get_state()]: every synchronised trait -- of [scales.py] and
    of [Widget] alike -- with its serialised value. *)
Definition get_state (o : config) : gmap string pyval :=
  map_imap (fun name t =>
              if sync t
              then to_json t <$> trait_values o !! name
              else None)
           (all_traits (cls o)).



(** ** Invariants *)


End Traitlets.

(** A value that [_trait_to_json] leaves as it is: no tuple in it. *)
Fixpoint no_tuple (v : pyval) : bool :=
  match v with
  | PTuple _ => false
  | PList l => forallb no_tuple l
  | _ => true
  end.

(** A value whose elements, if it is a sequence, hold no tuple. *)
Definition plain_elements (v : pyval) : bool :=
  match v with
  | PList l | PTuple l => forallb no_tuple l
  | _ => true
  end.

(** A text value. *)
Definition is_text (v : pyval) : bool :=
  match v with PStr _ => true | _ => false end.

(** A trait type whose validated values survive [_trait_to_json] followed
    by a second validation: the types of the library that [scales.py]
    uses, but for [Type_], whose values are class objects, and an [Enum]
    of anything but text. *)
Definition roundtrip_ready (t : trait) : bool :=
  match trait_kind t with
  | Enum values => forallb is_text values
  | Float | Unicode | Bool | List => true
  | Type_ _ | Date | Library _ => false
  end.

(** ** A concrete environment *)

(** Modelled from the spec: the [Date] trait type of [bqplot/traits.py],
    which [scales.py] imports and which is not part of the file.  The data
    model gives [min] and [max] of the date variants the type "date": the
    trait accepts date-time values and nothing else. *)
Definition Date_accepts_datetime (v : pyval) : option pyval :=
  match v with
  | PDatetime _ => Some v
  | _ => None
  end.

(** An interpreter in which no dotted name resolves to a class: the empty
    name is refused with [ValueError], any other with [ImportError]. *)
Definition no_import (s : string) : outcome pyval :=
  if String.eqb s "" then Raised ValueError else Raised ImportError.

(** [Int(d, sync=True)] of the trait library: an int is taken as it is. *)
Definition Int_decl (d : Z) : trait :=
  Trait (Library (fun v => match v with
                           | PInt _ | PBool _ => Returned v
                           | _ => Raised TraitError
                           end))
        (PInt d) false true.

(** The environment of the concrete runs.  Of the [Widget] of IPython 3 it
    has the three traits that are synchronised and not declared again by
    [Scale] ([msg_throttle], [version], [_view_module]) and the property
    [model_id]; the traits [Widget] keeps for its own bookkeeping are not
    part of it, and no run assigns to one.  For what neither the file nor
    the configuration model tells of [Date] it has stand-ins: a [Date] class
    that derives from [TraitType] only, and a serialiser that hands the
    value on as it is.  No two values of a run are taken to be one
    object. *)
Definition plain_env : environment := {|
  Date_validate := Date_accepts_datetime;
  Date_to_json := fun v => v;
  Date_bases := ["TraitType"; "object"];
  import_item := no_import;
  identical := fun _ _ => false;
  Widget_traits :=
    list_to_map [("msg_throttle", Int_decl 3); ("version", Int_decl 0);
                 ("_view_module", Unicode_decl "" true)];
  Widget_properties := {[ "model_id" := PStr "comm-id" ]}
|}.

(** * Properties *)

(** A property of each class of an explicit list, one goal per class. *)
Ltac each_class :=
  repeat (apply List.Forall_cons); [ .. | apply List.Forall_nil ].

(** A fact about every declaration of a class, one goal per declaration. *)
Ltac by_table c :=
  apply map_Forall_to_list;
  destruct c;
  match goal with
  | |- Forall ?P (map_to_list ?m) =>
      let l := eval vm_compute in (map_to_list m) in
      change (Forall P l)
  end;
  each_class; unfold uncurry.

(** The keyword list once [model_id] is taken out, computed. *)
Ltac take_out_model_id :=
  match goal with
  | |- context [filter ?P ?l] =>
      let r := eval vm_compute in (filter P l) in
      change (filter P l) with r
  end.

Section Properties.

Context {env : environment}.

(** *** Lookup *)

Lemma lookup_all_traits (c : scale_class) (name : string) :
  all_traits c !! name =
  match traits c !! name with
  | Some t => Some t
  | None => Widget_traits !! name
  end.
Proof.
  unfold all_traits. rewrite lookup_union.
  destruct (traits c !! name), (Widget_traits !! name); reflexivity.
Qed.

Lemma declared (c : scale_class) (name : string) (t : trait) :
  traits c !! name = Some t -> all_traits c !! name = Some t.
Proof. intros H. rewrite lookup_all_traits, H. reflexivity. Qed.

Lemma lookup_new (c : scale_class) (name : string) :
  trait_values (new c) !! name = default_value <$> all_traits c !! name.
Proof. cbn [new trait_values]. apply lookup_fmap. Qed.

Lemma not_model_id (c : scale_class) : traits c !! "model_id" = None.
Proof. destruct c; vm_compute; reflexivity. Qed.

(** *** Assignment, case by case *)

Lemma setattr_unfold (name : string) (v : pyval) (o : config) :
  setattr name v o =
  match all_traits (cls o) !! name with
  | Some t =>
      match _validate t v with
      | Returned nv =>
          let silent := match trait_values o !! name with
                        | Some old => py_eq is_ old nv
                        | None => py_eq is_ PNone nv
                        end in
          (Returned tt,
           if negb silent && (comm o && sync t)
           then mark_dirty name (set_trait_value name nv o)
           else set_trait_value name nv o)
      | Raised e => (Raised e, o)
      end
  | None =>
      match Widget_properties !! name with
      | Some _ => (Raised AttributeError, o)
      | None => (Returned tt, set_instance_attr name v o)
      end
  end.
Proof.
  unfold setattr, bind, get.
  destruct (all_traits (cls o) !! name) as [t|];
    [|destruct (Widget_properties !! name); reflexivity].
  unfold __set__, bind, lift, get, modify, _notify_trait, bind, get, ret.
  destruct (_validate t v) as [nv|e]; [|reflexivity].
  cbn [cls trait_values comm set_trait_value].
  destruct (trait_values o !! name) as [old|].
  - generalize (py_eq is_ old nv). intros [|]; cbn; [reflexivity|].
    destruct (comm o && sync t); reflexivity.
  - generalize (py_eq is_ PNone nv). intros [|]; cbn; [reflexivity|].
    destruct (comm o && sync t); reflexivity.
Qed.

(** An assignment that raises was refused by the validation of a trait or
    by a property without setter. *)
Lemma setattr_raised (name : string) (v : pyval) (o : config) (e : exn) :
  fst (setattr name v o) = Raised e <->
  (exists t, all_traits (cls o) !! name = Some t /\ _validate t v = Raised e) \/
  (all_traits (cls o) !! name = None /\ is_Some (Widget_properties !! name) /\
   e = AttributeError).
Proof.
  rewrite setattr_unfold.
  destruct (all_traits (cls o) !! name) as [t|] eqn:Ht.
  - destruct (_validate t v) as [nv|e'] eqn:Hv; cbn; split.
    + discriminate.
    + intros [(t' & Heq & Hr)|(Hn & _)]; congruence.
    + intros [= ->]. eauto.
    + intros [(t' & Heq & Hr)|(Hn & _)]; congruence.
  - destruct (Widget_properties !! name) as [p|] eqn:Hp; cbn; split.
    + intros [= <-]. right. eauto.
    + intros [(t' & Heq & _)|(_ & _ & ->)]; [discriminate|reflexivity].
    + discriminate.
    + intros [(t' & Heq & _)|(_ & [x Hx] & _)]; discriminate.
Qed.

Lemma setattr_cls (name : string) (v : pyval) (o : config) :
  cls (snd (setattr name v o)) = cls o.
Proof.
  rewrite setattr_unfold.
  destruct (all_traits (cls o) !! name) as [t|];
    [|destruct (Widget_properties !! name); reflexivity].
  destruct (_validate t v); [|reflexivity].
  cbn. destruct (negb _ && _); reflexivity.
Qed.

(** An accepted assignment to a trait stores the validated value. *)
Lemma setattr_stores (name : string) (v nv : pyval) (t : trait) (o : config) :
  all_traits (cls o) !! name = Some t ->
  _validate t v = Returned nv ->
  exists o', setattr name v o = (Returned tt, o') /\
             cls o' = cls o /\
             trait_values o' = <[name := nv]> (trait_values o) /\
             instance_dict o' = instance_dict o /\
             comm o' = comm o /\
             (comm o = false -> dirty o' = dirty o).
Proof.
  intros Ht Hv. rewrite setattr_unfold, Ht, Hv.
  eexists. split; [reflexivity|]. cbn.
  destruct (negb _ && (comm o && sync t)) eqn:Hd; cbn; repeat split; try reflexivity.
  intros Hc. rewrite Hc in Hd. rewrite andb_false_r in Hd. discriminate.
Qed.

Lemma setattr_returned (name : string) (v nv : pyval) (t : trait) (o : config) :
  traits (cls o) !! name = Some t ->
  _validate t v = Returned nv ->
  exists o', setattr name v o = (Returned tt, o') /\
             cls o' = cls o /\
             trait_values o' = <[name := nv]> (trait_values o) /\
             instance_dict o' = instance_dict o /\
             comm o' = comm o /\
             (comm o = false -> dirty o' = dirty o).
Proof. intros Ht. apply setattr_stores, declared, Ht. Qed.

Lemma setattr_refused (name : string) (v : pyval) (t : trait) (o : config) (e : exn) :
  traits (cls o) !! name = Some t ->
  _validate t v = Raised e ->
  setattr name v o = (Raised e, o).
Proof.
  intros Ht Hv. rewrite setattr_unfold, (declared _ _ _ Ht), Hv. reflexivity.
Qed.

(** *** The synchronised state, key by key *)

Lemma lookup_get_state (o : config) (name : string) :
  get_state o !! name =
  match all_traits (cls o) !! name with
  | Some t => if sync t then to_json t <$> trait_values o !! name else None
  | None => None
  end.
Proof.
  unfold get_state. rewrite map_lookup_imap.
  destruct (all_traits (cls o) !! name); reflexivity.
Qed.

Lemma state_of_field (o : config) (name : string) (t : trait) :
  traits (cls o) !! name = Some t ->
  get_state o !! name =
    if sync t then to_json t <$> trait_values o !! name else None.
Proof. intros Ht. rewrite lookup_get_state, (declared _ _ _ Ht). reflexivity. Qed.

Lemma getattr_of_field (o : config) (name : string) (t : trait) :
  traits (cls o) !! name = Some t ->
  getattr o name = trait_values o !! name.
Proof. intros Ht. unfold getattr. rewrite (declared _ _ _ Ht). reflexivity. Qed.

(** A fresh object: every declared field at its default. *)
Lemma fresh_getattr (c : scale_class) (name : string) (t : trait) :
  traits c !! name = Some t ->
  getattr (open_comm (new c)) name = Some (default_value t).
Proof.
  intros Ht. rewrite (getattr_of_field _ _ t) by exact Ht.
  cbn [open_comm trait_values]. rewrite lookup_new, (declared _ _ _ Ht).
  reflexivity.
Qed.

Lemma fresh_state (c : scale_class) (name : string) (t : trait) :
  traits c !! name = Some t ->
  get_state (open_comm (new c)) !! name =
    if sync t then Some (to_json t (default_value t)) else None.
Proof.
  intros Ht. rewrite (state_of_field _ _ t) by exact Ht.
  cbn [open_comm trait_values]. rewrite lookup_new, (declared _ _ _ Ht).
  reflexivity.
Qed.

(** *** Initialisation is an invariant *)




Lemma setattrs_cls (kwargs : list (string * pyval)) (o : config) :
  cls (snd (setattrs kwargs o)) = cls o.
Proof.
  revert o. induction kwargs as [|[name v] rest IH]; intros o; [reflexivity|].
  cbn [setattrs]. unfold bind.
  pose proof (setattr_cls name v o) as H1.
  destruct (setattr name v o) as [[[]|e] o1]; cbn in *; [|exact H1].
  rewrite IH. exact H1.
Qed.

Lemma construct_inv (c : scale_class) (kwargs : list (string * pyval)) (o : config) :
  construct c kwargs = Returned o ->
  o = open_comm (snd (setattrs (filter (fun kv => kv.1 <> "model_id") kwargs) (new c))) /\
  fst (setattrs (filter (fun kv => kv.1 <> "model_id") kwargs) (new c)) = Returned tt.
Proof.
  unfold construct, __init__, bind, modify.
  destruct (setattrs _ (new c)) as [[[]|e] o1]; cbn; [|discriminate].
  intros [= <-]. auto.
Qed.


Lemma reachable_cls_construct (c : scale_class) (kwargs : list (string * pyval)) (o : config) :
  construct c kwargs = Returned o -> cls o = c.
Proof.
  intros Hc. apply construct_inv in Hc as [-> _]. cbn [open_comm cls].
  apply setattrs_cls.
Qed.

(** *** Construction with one and with two accepted keywords *)

Lemma construct_one (c : scale_class) (k : string) (v nv : pyval) (t : trait) :
  traits c !! k = Some t -> _validate t v = Returned nv ->
  exists o, construct c [(k, v)] = Returned o /\ cls o = c /\
            trait_values o = <[k := nv]> (trait_values (new c)) /\
            instance_dict o = ∅ /\ comm o = true /\ dirty o = [].
Proof.
  intros Ht Hv.
  assert (Hk : k <> "model_id")
    by (intros ->; rewrite not_model_id in Ht; discriminate).
  destruct (setattr_returned k v nv t (new c) Ht Hv)
    as (o1 & Hrun & Hc & Htv & Hd & Hcm & Hdt).
  exists (open_comm o1). unfold construct, __init__, bind, modify.
  rewrite filter_cons_True by exact Hk. rewrite filter_nil.
  cbn [setattrs]. unfold bind, ret. rewrite Hrun.
  repeat split; cbn [open_comm cls trait_values instance_dict comm dirty];
    try assumption; try reflexivity.
  apply Hdt. reflexivity.
Qed.

Lemma construct_two (c : scale_class) (k1 k2 : string) (v1 nv1 v2 nv2 : pyval)
    (t1 t2 : trait) :
  traits c !! k1 = Some t1 -> _validate t1 v1 = Returned nv1 ->
  traits c !! k2 = Some t2 -> _validate t2 v2 = Returned nv2 ->
  exists o, construct c [(k1, v1); (k2, v2)] = Returned o /\ cls o = c /\
            trait_values o = <[k2 := nv2]> (<[k1 := nv1]> (trait_values (new c))) /\
            instance_dict o = ∅ /\ comm o = true /\ dirty o = [].
Proof.
  intros Ht1 Hv1 Ht2 Hv2.
  assert (Hk1 : k1 <> "model_id")
    by (intros ->; rewrite not_model_id in Ht1; discriminate).
  assert (Hk2 : k2 <> "model_id")
    by (intros ->; rewrite not_model_id in Ht2; discriminate).
  destruct (setattr_returned k1 v1 nv1 t1 (new c) Ht1 Hv1)
    as (o1 & Hrun1 & Hc1 & Htv1 & Hd1 & Hcm1 & Hdt1).
  assert (Ht2' : traits (cls o1) !! k2 = Some t2) by (rewrite Hc1; exact Ht2).
  destruct (setattr_returned k2 v2 nv2 t2 o1 Ht2' Hv2)
    as (o2 & Hrun2 & Hc2 & Htv2 & Hd2 & Hcm2 & Hdt2).
  exists (open_comm o2). unfold construct, __init__, bind, modify.
  rewrite filter_cons_True by exact Hk1.
  rewrite filter_cons_True by exact Hk2. rewrite filter_nil.
  cbn [setattrs]. unfold bind, ret. rewrite Hrun1, Hrun2.
  repeat split; cbn [open_comm cls trait_values instance_dict comm dirty].
  - rewrite Hc2, Hc1. reflexivity.
  - rewrite Htv2, Htv1. reflexivity.
  - rewrite Hd2, Hd1. reflexivity.
  - rewrite Hdt2, Hdt1; auto; rewrite Hcm1; reflexivity.
Qed.

(** *** Declarations, one by one *)

(** Every declaration of the file: the declared default has plain elements
    and passes the validation of its own trait unchanged. *)
Definition declaration_ok (t : trait) : Prop :=
  plain_elements (default_value t) = true /\
  _validate t (default_value t) = Returned (default_value t).

Lemma declarations_ok (c : scale_class) :
  map_Forall (fun _ t => declaration_ok t) (traits c).
Proof. by_table c; split; reflexivity. Qed.

(** An assignment of the value a trait holds, while the comm is closed,
    changes nothing. *)
Lemma setattr_same (name : string) (v : pyval) (t : trait) (o : config) :
  all_traits (cls o) !! name = Some t ->
  _validate t v = Returned v ->
  trait_values o !! name = Some v ->
  comm o = false ->
  setattr name v o = (Returned tt, o).
Proof.
  intros Ht Hv Hx Hc. rewrite setattr_unfold, Ht, Hv. cbn zeta.
  rewrite Hc, andb_false_l, andb_false_r. f_equal.
  destruct o as [c tv d cm dt]. unfold set_trait_value.
  cbn [cls trait_values instance_dict comm dirty] in *.
  f_equal. apply insert_id, Hx.
Qed.

Lemma setattrs_same (l : list (string * pyval)) (o : config) :
  comm o = false ->
  (forall k v, (k, v) ∈ l ->
     exists t, all_traits (cls o) !! k = Some t /\
               _validate t v = Returned v /\
               trait_values o !! k = Some v) ->
  setattrs l o = (Returned tt, o).
Proof.
  intros Hc. induction l as [|[k v] rest IH]; intros Hl; [reflexivity|].
  cbn [setattrs]. unfold bind.
  destruct (Hl k v) as (t & Ht & Hv & Hx); [left|].
  rewrite (setattr_same k v t o Ht Hv Hx Hc).
  apply IH. intros k' v' Hin. apply Hl. right. exact Hin.
Qed.

(** The defaults of a class, passed back as keywords, give the object that
    no keyword gives. *)
Lemma construct_with_defaults (c : scale_class) :
  construct c (map_to_list (defaults c)) = Returned (open_comm (new c)).
Proof.
  unfold construct, __init__, bind, modify.
  rewrite setattrs_same; [reflexivity|reflexivity|].
  intros k v Hin. apply list_elem_of_filter in Hin as [_ Hin].
  apply elem_of_map_to_list in Hin. unfold defaults in Hin.
  apply lookup_fmap_Some in Hin as (t & <- & Ht).
  exists t. split; [exact (declared _ _ _ Ht)|].
  split; [exact (proj2 (declarations_ok c k t Ht))|].
  rewrite lookup_new, (declared _ _ _ Ht). reflexivity.
Qed.

(** An accepted assignment of a string to a synchronised text trait shows
    in the state under that name. *)
Lemma setattr_text (o : config) (name s : string) (t : trait) :
  traits (cls o) !! name = Some t ->
  trait_kind t = Unicode -> sync t = true ->
  fst (setattr name (PStr s) o) = Returned tt /\
  get_state (snd (setattr name (PStr s) o)) !! name = Some (PStr s).
Proof.
  intros Ht Hk Hs.
  assert (Hv : _validate t (PStr s) = Returned (PStr s))
    by (unfold _validate; rewrite Hk; reflexivity).
  destruct (setattr_returned name _ _ t o Ht Hv) as (o' & -> & Hc & Htv & _).
  split; [reflexivity|]. cbn [snd].
  rewrite (state_of_field o' name t) by (rewrite Hc; exact Ht).
  rewrite Hs, Htv, lookup_insert_eq.
  unfold to_json. rewrite Hk. reflexivity.
Qed.

(** *** The range-type tag *)

(** C1, as the code has it: for each of the seven variants, an object built
    without arguments -- or, which gives the same object, with the defaults
    of the variant passed back as arguments -- has in its state the
    [scale_range_type] of its family, "numerical" or "Color".  The tag is
    the default of an ordinary synchronised text trait: an assignment of any
    string to it is accepted and shows in the state. *)
Theorem range_type_tag_is_a_default :
  Forall (fun V =>
            construct V [] = Returned (open_comm (new V)) /\
            construct V (map_to_list (defaults V)) = Returned (open_comm (new V)) /\
            get_state (open_comm (new V)) !! "scale_range_type"
              = Some (PStr (range_tag V)) /\
            forall s : string,
              fst (setattr "scale_range_type" (PStr s) (open_comm (new V)))
                = Returned tt /\
              get_state (snd (setattr "scale_range_type" (PStr s) (open_comm (new V))))
                !! "scale_range_type" = Some (PStr s))
         variants.
Proof.
  unfold variants.
  each_class;
    (split; [reflexivity|]);
    (split; [apply construct_with_defaults|]);
    (split; [erewrite fresh_state by (vm_compute; reflexivity); reflexivity|]);
    intros s;
    (eapply setattr_text; [vm_compute; reflexivity | reflexivity | reflexivity]).
Qed.

(** *** The routing identifiers *)


(** *** Assignment to a name that is not a trait *)


(** *** Failing assignments *)


(** *** The synchronised state *)



(** *** Serialisation and construction, back and forth *)

Lemma no_tuple_to_json : forall v, no_tuple v = true -> _trait_to_json v = v.
Proof.
  fix IH 1. intros [] H; cbn in *; try reflexivity; try discriminate.
  f_equal. induction l as [|x l IHl]; [reflexivity|]. cbn in *.
  apply andb_prop in H as [Hx Hl]. f_equal; [apply IH, Hx | apply IHl, Hl].
Qed.

Lemma plain_list_to_json (l : list pyval) :
  forallb no_tuple l = true -> _trait_to_json (PList l) = PList l.
Proof. intros H. apply (no_tuple_to_json (PList l)). exact H. Qed.

Lemma py_eq_text (s : string) (v : pyval) :
  py_eq is_ (PStr s) v || is_ (PStr s) v = true -> v = PStr s.
Proof.
  intros H. apply orb_prop in H as [H|H].
  - destruct v; cbn in H; try discriminate.
    apply String.eqb_eq in H. congruence.
  - unfold is_ in H. apply andb_prop in H as [_ H].
    destruct v; cbn in H; try discriminate.
    apply String.eqb_eq in H. congruence.
Qed.

Lemma text_enum_member (values : list pyval) (v : pyval) :
  forallb is_text values = true ->
  existsb (fun x => py_eq is_ x v || is_ x v) values = true ->
  exists s, v = PStr s.
Proof.
  induction values as [|x xs IH]; cbn [forallb existsb]; [discriminate|].
  intros Ht He. apply andb_prop in Ht as [Hx Hxs].
  apply orb_prop in He as [He|He]; [|auto].
  destruct x; try discriminate Hx. apply py_eq_text in He. eauto.
Qed.

(** A parameter set that comes back: every keyword names a synchronised
    field that [scales.py] declares for the class, and no sequence among
    the values has a tuple among its elements. *)
Definition plain_parameters (c : scale_class) (kwargs : list (string * pyval)) : bool :=
  forallb (fun kv => match traits c !! kv.1 with
                     | Some t => sync t && plain_elements kv.2
                     | None => false
                     end) kwargs.

(** The variants without a field of type [Date]. *)
Definition date_free : list scale_class :=
  [LinearScale; LogScale; OrdinalScale; ColorScale; OrdinalColorScale].

Lemma date_free_ready (c : scale_class) :
  In c date_free ->
  map_Forall (fun _ t => sync t = true -> roundtrip_ready t = true) (traits c).
Proof.
  intros Hin. apply map_Forall_to_list.
  cbn in Hin. decompose [or] Hin; try contradiction; subst c;
    match goal with
    | |- Forall ?P (map_to_list ?m) =>
        let l := eval vm_compute in (map_to_list m) in
        change (Forall P l)
    end;
    each_class; unfold uncurry;
    first [reflexivity | intros H; discriminate H].
Qed.

Lemma validated_stable (t : trait) (v nv : pyval) :
  roundtrip_ready t = true ->
  plain_elements v = true ->
  _validate t v = Returned nv ->
  _validate t (to_json t nv) = Returned nv.
Proof.
  intros Hr Hp. unfold _validate at 1.
  destruct (is_None v && allow_none t) eqn:Hn.
  - intros [= <-]. apply andb_prop in Hn as [Hv Ha].
    destruct v; try discriminate.
    assert (Hj : to_json t PNone = PNone)
      by (unfold to_json; unfold roundtrip_ready in Hr;
          destruct (trait_kind t); try discriminate Hr; reflexivity).
    rewrite Hj. unfold _validate. rewrite Ha. reflexivity.
  - unfold roundtrip_ready in Hr. unfold _validate, to_json, validate.
    destruct (trait_kind t) as [| | |values| |klass| |lib] eqn:Hk;
      try discriminate Hr.
    + destruct v; try discriminate; intros Hv.
      * unfold float_of_int in Hv.
        destruct (binary_normalize _ _ _ _ _); inversion Hv; reflexivity.
      * unfold float_of_int in Hv.
        destruct (binary_normalize _ _ _ _ _); inversion Hv; reflexivity.
      * inversion Hv. reflexivity.
    + destruct v; try discriminate; intros Hv.
      * inversion Hv. reflexivity.
      * destruct (decode_ascii bs); inversion Hv. reflexivity.
    + destruct v; try discriminate; intros [= <-]. reflexivity.
    + destruct (existsb _ values) eqn:He; [|discriminate].
      intros [= <-]. destruct (text_enum_member _ _ Hr He) as [s ->].
      cbn [_trait_to_json is_None andb]. rewrite He. reflexivity.
    + destruct v; try discriminate; intros [= <-];
        cbn [plain_elements] in Hp; rewrite (plain_list_to_json _ Hp); reflexivity.
Qed.

Lemma plain_parameters_filter (c : scale_class) (l : list (string * pyval)) :
  plain_parameters c l = true ->
  plain_parameters c (filter (fun kv => kv.1 <> "model_id") l) = true.
Proof.
  unfold plain_parameters. induction l as [|kv l IH]; [reflexivity|].
  cbn [forallb]. intros H. apply andb_prop in H as [H1 H2].
  rewrite filter_cons. destruct (decide _); [|auto].
  cbn [forallb]. rewrite H1. auto.
Qed.

Section RoundTrip.

(** What the round trip needs of [Widget]: the defaults of the traits it
    synchronises are accepted back when they are sent. *)
Hypothesis Widget_defaults_back :
  forall k t, Widget_traits !! k = Some t -> sync t = true ->
              _validate t (to_json t (default_value t)) = Returned (default_value t).

(** An object whose state can be fed back: every synchronised field of
    [scales.py] holds a value that its own serialisation validates to,
    every other trait holds its default, nothing else is stored, and
    nothing was sent yet. *)
Definition settled (o : config) : Prop :=
  (forall k t, traits (cls o) !! k = Some t ->
     exists v, trait_values o !! k = Some v /\
               if sync t then _validate t (to_json t v) = Returned v
               else v = default_value t) /\
  (forall k t, traits (cls o) !! k = None -> Widget_traits !! k = Some t ->
               trait_values o !! k = Some (default_value t)) /\
  (forall k, all_traits (cls o) !! k = None -> trait_values o !! k = None) /\
  instance_dict o = ∅ /\ comm o = false /\ dirty o = [].

Lemma new_settled (c : scale_class) : In c date_free -> settled (new c).
Proof.
  intros Hin. repeat split; cbn [new cls instance_dict comm dirty]; try reflexivity.
  - intros k t Ht. exists (default_value t).
    rewrite lookup_new, (declared _ _ _ Ht). split; [reflexivity|].
    destruct (declarations_ok c k t Ht) as (Hp & Hv).
    destruct (sync t) eqn:Hs; [|reflexivity].
    apply (validated_stable t (default_value t)); auto.
    exact (date_free_ready c Hin k t Ht Hs).
  - intros k t Hn Hw. rewrite lookup_new, lookup_all_traits, Hn, Hw. reflexivity.
  - intros k Hk. rewrite lookup_new, Hk. reflexivity.
Qed.

Lemma setattrs_settled (kwargs : list (string * pyval)) (o : config) :
  In (cls o) date_free ->
  plain_parameters (cls o) kwargs = true ->
  settled o ->
  fst (setattrs kwargs o) = Returned tt ->
  settled (snd (setattrs kwargs o)).
Proof.
  revert o. induction kwargs as [|[k v] rest IH]; intros o Hin Hw Hs Hf; [exact Hs|].
  cbn [plain_parameters forallb fst snd] in Hw.
  apply andb_prop in Hw as [Hkv Hrest].
  destruct (traits (cls o) !! k) as [t|] eqn:Ht; [|discriminate].
  apply andb_prop in Hkv as [Hsync Hplain].
  cbn [setattrs] in *. unfold bind in *.
  destruct (_validate t v) as [nv|e] eqn:Hv.
  - destruct (setattr_returned k v nv t o Ht Hv)
      as (o' & Hrun & Hc & Htv & Hd & Hcomm & Hdirty).
    rewrite Hrun in *.
    apply IH; [rewrite Hc; exact Hin|rewrite Hc; exact Hrest| |exact Hf].
    destruct Hs as (Hdecl & Hwid & Hundecl & Hdict & Hcm & Hdt).
    repeat split.
    + intros k' t' Ht'. rewrite Hc in Ht'. rewrite Htv.
      destruct (decide (k = k')) as [<-|Hne].
      * rewrite lookup_insert_eq. exists nv. split; [reflexivity|].
        assert (t' = t) as -> by congruence. rewrite Hsync.
        apply (validated_stable t v); auto.
        exact (date_free_ready (cls o) Hin k t Ht Hsync).
      * rewrite lookup_insert_ne by exact Hne. apply Hdecl, Ht'.
    + intros k' t' Hn' Hw'. rewrite Hc in Hn'. rewrite Htv.
      rewrite lookup_insert_ne by congruence. exact (Hwid k' t' Hn' Hw').
    + intros k' Hk'. rewrite Hc in Hk'. rewrite Htv.
      rewrite lookup_insert_ne; [apply Hundecl, Hk'|].
      intros <-. rewrite (declared _ _ _ Ht) in Hk'. discriminate.
    + congruence.
    + congruence.
    + rewrite Hdirty; auto.
  - exfalso. rewrite (setattr_refused k v t o e Ht Hv) in Hf. discriminate Hf.
Qed.

(** Feeding entries of the state of [c] into an object of the same class
    with a closed comm: each entry is accepted and gives the trait the value
    it has in [c]. *)
Lemma setattrs_state (c : config) (items : list (string * pyval)) (o : config) :
  settled c ->
  (forall k j, (k, j) ∈ items -> get_state c !! k = Some j) ->
  cls o = cls c -> comm o = false ->
  exists o', setattrs items o = (Returned tt, o') /\
             cls o' = cls c /\ comm o' = false /\
             dirty o' = dirty o /\ instance_dict o' = instance_dict o /\
             forall k, trait_values o' !! k =
                       if decide (k ∈ items.*1) then trait_values c !! k
                       else trait_values o !! k.
Proof.
  intros Hs. revert o.
  induction items as [|[k j] rest IH]; intros o Hitems Hcls Hcomm.
  - exists o. repeat split; auto.
  - assert (Hk : get_state c !! k = Some j) by (apply Hitems; left).
    rewrite lookup_get_state in Hk.
    destruct (all_traits (cls c) !! k) as [t|] eqn:Ht; [|discriminate].
    destruct (sync t) eqn:Hsync; [|discriminate].
    assert (Hval : exists v, trait_values c !! k = Some v /\
                             _validate t (to_json t v) = Returned v).
    { destruct Hs as (Hdecl & Hwid & _).
      rewrite lookup_all_traits in Ht.
      destruct (traits (cls c) !! k) as [t'|] eqn:Ht'.
      - injection Ht as ->. destruct (Hdecl k t Ht') as (v & Hv & Hst).
        rewrite Hsync in Hst. eauto.
      - exists (default_value t). split; [exact (Hwid k t Ht' Ht)|].
        exact (Widget_defaults_back k t Ht Hsync). }
    destruct Hval as (v & Hv & Hstable).
    rewrite Hv in Hk. cbn in Hk. injection Hk as <-.
    rewrite <- Hcls in Ht.
    destruct (setattr_stores k _ v t o Ht Hstable)
      as (o1 & Hrun & Hc1 & Htv1 & Hd1 & Hcomm1 & Hdirty1).
    destruct (IH o1) as (o' & Hrun' & Hc' & Hcomm' & Hdirty' & Hdict' & Hlook).
    + intros k' j' Hin. apply Hitems. right. exact Hin.
    + congruence.
    + congruence.
    + exists o'. cbn [setattrs]. unfold bind. rewrite Hrun, Hrun'.
      repeat split; try congruence.
      * rewrite Hdirty', Hdirty1; auto.
      * intros x. rewrite Hlook. cbn [fmap list_fmap fst].
        destruct (decide (x ∈ rest.*1)) as [Hin|Hnin].
        -- rewrite decide_True; [reflexivity|]. right. exact Hin.
        -- rewrite Htv1. destruct (decide (k = x)) as [<-|Hne].
           ++ rewrite lookup_insert_eq, decide_True; [auto|left].
           ++ rewrite lookup_insert_ne by exact Hne.
              rewrite decide_False; [reflexivity|].
              intros Hx. apply elem_of_cons in Hx as [->|Hx]; contradiction.
Qed.

(** C6, as the code has it: for each of the five variants without a field
    of type [Date], and every parameter set that the constructor accepts,
    that names synchronised fields of the variant only and has no tuple
    among the elements of its sequences, the state of the object, fed back
    to the constructor of the class in any order of its entries, is
    accepted and gives an object equal to the first, field for field --
    given that the defaults of the traits [Widget] synchronises are accepted
    back. *)
Theorem state_round_trip (V : scale_class) (P items : list (string * pyval))
    (c : config) :
  In V date_free ->
  plain_parameters V P = true ->
  construct V P = Returned c ->
  items ≡ₚ map_to_list (get_state c) ->
  construct V items = Returned c.
Proof.
  intros Hin Hw Hc Hperm.
  apply construct_inv in Hc as [-> Hf].
  remember (snd (setattrs (filter (fun kv => kv.1 <> "model_id") P) (new V)))
    as c0 eqn:Hc0.
  assert (Hcls : cls c0 = V) by (rewrite Hc0; apply setattrs_cls).
  assert (Hs : settled c0)
    by (rewrite Hc0; apply setattrs_settled;
        [exact Hin | apply plain_parameters_filter, Hw
        | apply new_settled, Hin | exact Hf]).
  clear Hc0.
  assert (Hst : get_state (open_comm c0) = get_state c0)
    by (apply map_eq; intros k; rewrite !lookup_get_state; reflexivity).
  rewrite Hst in Hperm.
  destruct (setattrs_state c0 (filter (fun kv => kv.1 <> "model_id") items)
              (new V) Hs)
    as (o' & Hrun & Hc' & Hcomm' & Hdirty' & Hdict' & Hlook).
  { intros k j Hin'. apply list_elem_of_filter in Hin' as [_ Hin'].
    rewrite Hperm in Hin'. apply elem_of_map_to_list in Hin'. exact Hin'. }
  { cbn [new cls]. congruence. }
  { reflexivity. }
  unfold construct, __init__, bind, modify. rewrite Hrun.
  f_equal. destruct Hs as (Hdecl & Hwid & Hundecl & Hdict & Hcm & Hdt).
  assert (Htv : trait_values o' = trait_values c0).
  { apply map_eq. intros k. rewrite Hlook.
    destruct (decide _) as [Hk|Hnin]; [reflexivity|].
    rewrite lookup_new, lookup_all_traits.
    pose proof (lookup_all_traits V k) as Hall. rewrite <- Hcls in *.
    destruct (traits (cls c0) !! k) as [t|] eqn:Ht; cbn.
    - destruct (Hdecl k t Ht) as (v & Hv & Hval).
      destruct (sync t) eqn:Hsync; [|congruence].
      exfalso. apply Hnin.
      apply (list_elem_of_fmap_2 fst _ (k, to_json t v)).
      apply list_elem_of_filter. split.
      + cbn. intros ->. rewrite not_model_id in Ht. discriminate.
      + rewrite Hperm. apply elem_of_map_to_list.
        rewrite lookup_get_state, (declared _ _ _ Ht), Hsync, Hv. reflexivity.
    - destruct (Widget_traits !! k) as [t|] eqn:Hwt; cbn.
      + symmetry. exact (Hwid k t Ht Hwt).
      + symmetry. apply Hundecl. rewrite Hall. reflexivity. }
  destruct o' as [cls' tv' dict' comm' dirty'], c0 as [cls0 tv0 dict0 comm0 dirty0].
  cbn [cls trait_values instance_dict comm dirty open_comm new] in *.
  subst. reflexivity.
Qed.

End RoundTrip.

End Properties.

Section DomainAndFieldTypes.

Context {env : environment}.


(** *** The domain class *)


(** *** Ordinal domains *)

(** C8, as the code has it: an ordinal variant built with any list as its
    [domain] -- repeated values or not -- is constructed, and the object
    holds the list as given, order and repetitions included.  Its state
    carries a list of the same length that has, at each position, what the
    serialiser makes of the element at that position: the list as given
    when no element holds a tuple. *)
Theorem ordinal_domain_kept_as_given (l : list pyval) :
  Forall (fun V =>
            exists o sent,
              construct V [("domain", PList l)] = Returned o /\
              getattr o "domain" = Some (PList l) /\
              get_state o !! "domain" = Some (PList sent) /\
              length sent = length l /\
              (forall (i : nat) (x : pyval),
                 l !! i = Some x -> sent !! i = Some (_trait_to_json x)) /\
              (forallb no_tuple l = true -> sent = l))
         [OrdinalScale; OrdinalColorScale].
Proof.
  each_class.
  all: match goal with
       | |- exists o sent, construct ?V _ = _ /\ _ =>
           assert (Ht : traits V !! "domain" = Some (List_decl true))
             by (vm_compute; reflexivity);
           destruct (construct_one V "domain" (PList l) (PList l) _ Ht eq_refl)
             as (o & Hc & Hcls & Htv & _);
           exists o, (List.map _trait_to_json l);
           split; [exact Hc|];
           split; [rewrite (getattr_of_field o "domain" _) by (rewrite Hcls; exact Ht);
                   rewrite Htv; apply lookup_insert_eq|];
           split; [rewrite (state_of_field o "domain" _) by (rewrite Hcls; exact Ht);
                   rewrite Htv, lookup_insert_eq; reflexivity|];
           split; [apply length_map|];
           split; [intros i x Hx; rewrite list_lookup_fmap, Hx; reflexivity|];
           intros Hp; pose proof (plain_list_to_json l Hp) as Hj;
           cbn [_trait_to_json] in Hj; congruence
       end.
Qed.

(** *** The fields of DateColorScale *)


(** *** The domain class of the ordinal variants *)

(** C10: neither [OrdinalScale] nor [OrdinalColorScale] declares
    [domain_class]; each declares a [domain] list; the trait they have under
    the name [domain_class] is the one [Scale] declares, and a fresh object
    of either class has the class [Float] as its [domain_class]. *)
Theorem ordinal_domain_class_inherited :
  Forall (fun V =>
            class_dict V !! "domain_class" = None /\
            class_dict V !! "domain" = Some (List_decl true) /\
            traits V !! "domain_class" = class_dict Scale !! "domain_class" /\
            construct V [] = Returned (open_comm (new V)) /\
            getattr (open_comm (new V)) "domain_class" = Some Float_class)
         [OrdinalScale; OrdinalColorScale].
Proof.
  each_class;
    (split; [vm_compute; reflexivity|]);
    (split; [vm_compute; reflexivity|]);
    (split; [vm_compute; reflexivity|]);
    (split; [reflexivity|]);
    (erewrite fresh_getattr by (vm_compute; reflexivity); reflexivity).
Qed.

End DomainAndFieldTypes.

(** * Further properties of the class table *)

Section FieldDiscipline.

Context {env : environment}.










(** *** Single fields *)








(** *** The state *)




(** *** Assignments, one after the other *)




(** *** Construction *)

(** X11: the bounds of the numeric scales are not checked against each
    other, nor for sign or finiteness: [LinearScale], [LogScale] and
    [ColorScale] are constructed with any two floats as [min] and [max],
    and hold them as given. *)
Theorem bounds_are_not_compared (f1 f2 : spec_float) :
  Forall (fun V =>
            exists o,
              construct V [("min", PFloat f1); ("max", PFloat f2)] = Returned o /\
              getattr o "min" = Some (PFloat f1) /\
              getattr o "max" = Some (PFloat f2))
         [LinearScale; LogScale; ColorScale].
Proof.
  each_class.
  all: match goal with
       | |- exists o, construct ?V _ = _ /\ _ =>
           assert (H1 : traits V !! "min" = Some (optional_decl Float true))
             by (vm_compute; reflexivity);
           assert (H2 : traits V !! "max" = Some (optional_decl Float true))
             by (vm_compute; reflexivity);
           destruct (construct_two V "min" "max" (PFloat f1) (PFloat f1)
                       (PFloat f2) (PFloat f2) _ _ H1 eq_refl H2 eq_refl)
             as (o & Hc & Hcls & Htv & _);
           exists o; split; [exact Hc|];
           split;
           [rewrite (getattr_of_field o "min" _) by (rewrite Hcls; exact H1)
           |rewrite (getattr_of_field o "max" _) by (rewrite Hcls; exact H2)];
           rewrite Htv;
           [rewrite lookup_insert_ne by discriminate|];
           apply lookup_insert_eq
       end.
Qed.

(** *** Inheritance *)

(** X12: a class has every field of the class it derives from, synchronised
    and optional exactly as there; the type of the field is that of the
    base class too, except for [domain_class] in [DateScale] and [min],
    [max] and [mid] in [DateColorScale]. *)
Theorem inherited_fields (c b : scale_class) (name : string) (tb : trait) :
  base c = Some b ->
  traits b !! name = Some tb ->
  exists tc, traits c !! name = Some tc /\
             sync tc = sync tb /\ allow_none tc = allow_none tb /\
             (trait_kind tc = trait_kind tb \/
              In (c, name) [(DateScale, "domain_class"); (DateColorScale, "min");
                            (DateColorScale, "max"); (DateColorScale, "mid")]).
Proof.
  intros Hb. revert name tb.
  change (map_Forall (fun name tb =>
            exists tc, traits c !! name = Some tc /\
              sync tc = sync tb /\ allow_none tc = allow_none tb /\
              (trait_kind tc = trait_kind tb \/
               In (c, name) [(DateScale, "domain_class"); (DateColorScale, "min");
                             (DateColorScale, "max"); (DateColorScale, "mid")]))
          (traits b)).
  apply map_Forall_to_list.
  destruct c; inversion Hb; subst b;
    match goal with
    | |- Forall ?P (map_to_list ?m) =>
        let l := eval vm_compute in (map_to_list m) in
        change (Forall P l)
    end;
    each_class; unfold uncurry;
    (eexists; split; [vm_compute; reflexivity|];
     split; [reflexivity|]; split; [reflexivity|];
     first [left; reflexivity | right; cbn; auto 10]).
Qed.

(** X13: [DateColorScale] does not declare [domain_class]: it has the
    domain class [Float] of [Scale], although its [min] and [max] are the
    [Date] declarations of [DateScale], whose domain class is [Date].  A
    [DateScale] refuses [Float] as its domain class, and a [DateColorScale]
    takes [Date] as its domain class exactly when the class [Date] derives
    from [Float]. *)
Theorem date_variants_domain_class (o o' : config) :
  cls o = DateScale -> cls o' = DateColorScale ->
  class_dict DateColorScale !! "domain_class" = None /\
  traits DateColorScale !! "min" = traits DateScale !! "min" /\
  traits DateColorScale !! "max" = traits DateScale !! "max" /\
  getattr (open_comm (new DateColorScale)) "domain_class" = Some Float_class /\
  getattr (open_comm (new DateScale)) "domain_class" = Some Date_class /\
  setattr "domain_class" Float_class o = (Raised TraitError, o) /\
  fst (setattr "domain_class" Date_class o') =
    if issubclass Date_class Float_class then Returned tt else Raised TraitError.
Proof.
  intros Hc Hc'.
  split; [vm_compute; reflexivity|]. split; [vm_compute; reflexivity|].
  split; [vm_compute; reflexivity|].
  split; [erewrite fresh_getattr by (vm_compute; reflexivity); reflexivity|].
  split; [erewrite fresh_getattr by (vm_compute; reflexivity); reflexivity|].
  assert (Ht : traits (cls o) !! "domain_class" = Some (Type_decl Date_class false))
    by (rewrite Hc; vm_compute; reflexivity).
  assert (Ht' : traits (cls o') !! "domain_class" = Some (Type_decl Float_class false))
    by (rewrite Hc'; vm_compute; reflexivity).
  split.
  - exact (setattr_refused "domain_class" Float_class _ o TraitError Ht eq_refl).
  - rewrite setattr_unfold, (declared _ _ _ Ht').
    unfold _validate, validate, Date_class.
    cbn [is_None andb trait_kind Type_decl].
    destruct (issubclass _ _); reflexivity.
Qed.



End FieldDiscipline.

(** * Concrete runs *)

(** The runs below take place in [plain_env]. *)
#[local] Existing Instance plain_env.

(** The class [CFloat] of the trait library, which derives from [Float]. *)
Definition CFloat_class : pyval := PClass "CFloat" ["Float"; "TraitType"; "object"].

(** C1 does not hold as stated: [scale_range_type] can be assigned.  After
    the assignment of "Color" to the tag of a fresh [LinearScale], the
    state carries "Color", which is not the tag of the family. *)
Lemma range_type_tag_overwritten :
  fst (setattr "scale_range_type" (PStr "Color") (open_comm (new LinearScale)))
    = Returned tt /\
  get_state (snd (setattr "scale_range_type" (PStr "Color")
                    (open_comm (new LinearScale))))
    !! "scale_range_type" = Some (PStr "Color") /\
  (exists o, construct LinearScale [("scale_range_type", PStr "Color")] = Returned o /\
             get_state o !! "scale_range_type" = Some (PStr "Color")) /\
  PStr "Color" <> PStr (range_tag LinearScale).
Proof.
  split; [vm_compute; reflexivity|].
  split; [vm_compute; reflexivity|].
  split; [eexists; split; vm_compute; reflexivity|].
  discriminate.
Qed.







(** C6 does not hold as stated: two parameter sets that the constructor
    accepts do not come back.  A tuple among the elements of a domain is
    sent as a list, and is a list in the object built from the state; and
    [domain_class] is not sent at all, so that the class [CFloat] given to
    a [LinearScale] is the default [Float] in the object built from the
    state. *)
Lemma round_trip_loses_tuples_and_domain_class :
  (exists c c',
     construct OrdinalScale [("domain", PList [PTuple [PInt 1; PInt 2]])]
       = Returned c /\
     construct OrdinalScale (map_to_list (get_state c)) = Returned c' /\
     getattr c "domain" = Some (PList [PTuple [PInt 1; PInt 2]]) /\
     getattr c' "domain" = Some (PList [PList [PInt 1; PInt 2]]) /\
     c' <> c) /\
  (exists c c',
     construct LinearScale [("domain_class", CFloat_class)] = Returned c /\
     construct LinearScale (map_to_list (get_state c)) = Returned c' /\
     getattr c "domain_class" = Some CFloat_class /\
     getattr c' "domain_class" = Some Float_class /\
     c' <> c).
Proof.
  split.
  - eexists. eexists.
    split; [vm_compute; reflexivity|]. split; [vm_compute; reflexivity|].
    split; [vm_compute; reflexivity|]. split; [vm_compute; reflexivity|].
    intros H. apply (f_equal (fun o => getattr o "domain")) in H.
    vm_compute in H. discriminate H.
  - eexists. eexists.
    split; [vm_compute; reflexivity|]. split; [vm_compute; reflexivity|].
    split; [vm_compute; reflexivity|]. split; [vm_compute; reflexivity|].
    intros H. apply (f_equal (fun o => getattr o "domain_class")) in H.
    vm_compute in H. discriminate H.
Qed.

(** The scenario of C6: the domain of an [OrdinalColorScale] comes back in
    its declared order. *)
Lemma state_round_trip_witness :
  let P := [("domain", PList [PStr "low"; PStr "mid"; PStr "high"])] in
  let c := open_comm (snd (setattrs P (new OrdinalColorScale))) in
  (forall k t, Widget_traits !! k = Some t -> sync t = true ->
               _validate t (to_json t (default_value t)) = Returned (default_value t)) /\
  In OrdinalColorScale date_free /\
  plain_parameters OrdinalColorScale P = true /\
  construct OrdinalColorScale P = Returned c /\
  construct OrdinalColorScale (map_to_list (get_state c)) = Returned c /\
  getattr c "domain" = Some (PList [PStr "low"; PStr "mid"; PStr "high"]).
Proof.
  intros P c.
  assert (H0 : forall k t, Widget_traits !! k = Some t -> sync t = true ->
                 _validate t (to_json t (default_value t)) = Returned (default_value t)).
  { intros k t Hk _. revert k t Hk.
    change (map_Forall (fun (_ : string) t =>
              _validate t (to_json t (default_value t)) = Returned (default_value t))
            Widget_traits).
    apply map_Forall_to_list.
    match goal with
    | |- Forall ?Q (map_to_list ?m) =>
        let l := eval vm_compute in (map_to_list m) in
        change (Forall Q l)
    end.
    each_class; reflexivity. }
  assert (Hin : In OrdinalColorScale date_free) by (cbn; auto 10).
  assert (Hw : plain_parameters OrdinalColorScale P = true) by (vm_compute; reflexivity).
  assert (Hc : construct OrdinalColorScale P = Returned c) by (vm_compute; reflexivity).
  split; [exact H0|]. split; [exact Hin|]. split; [exact Hw|]. split; [exact Hc|].
  split.
  - exact (state_round_trip H0 OrdinalColorScale P
             (map_to_list (get_state c)) c Hin Hw Hc (Permutation_refl _)).
  - vm_compute; reflexivity.
Defined.


(** C8 does not hold as stated: an [OrdinalScale] with a repeated value in
    its domain is constructed, and holds the domain as given. *)
Lemma repeated_domain_accepted :
  construct OrdinalScale [("domain", PList [PStr "a"; PStr "b"; PStr "a"])]
    <> Raised TraitError /\
  exists o,
    construct OrdinalScale [("domain", PList [PStr "a"; PStr "b"; PStr "a"])]
      = Returned o /\
    getattr o "domain" = Some (PList [PStr "a"; PStr "b"; PStr "a"]) /\
    get_state o !! "domain" = Some (PList [PStr "a"; PStr "b"; PStr "a"]).
Proof.
  split; [vm_compute; discriminate|].
  eexists. repeat split; vm_compute; reflexivity.
Qed.


(** ** Runs of the further properties *)









Lemma inherited_fields_witness :
  base DateColorScale = Some ColorScale /\
  traits ColorScale !! "mid" = Some (optional_decl Float true) /\
  exists tc, traits DateColorScale !! "mid" = Some tc /\
             sync tc = true /\ allow_none tc = true.
Proof.
  assert (Hb : base DateColorScale = Some ColorScale) by reflexivity.
  assert (Ht : traits ColorScale !! "mid" = Some (optional_decl Float true))
    by (vm_compute; reflexivity).
  split; [exact Hb|]. split; [exact Ht|].
  destruct (inherited_fields DateColorScale ColorScale "mid" _ Hb Ht)
    as (tc & H1 & H2 & H3 & _).
  exists tc. auto.
Defined.

Lemma date_variants_domain_class_witness :
  cls (open_comm (new DateScale)) = DateScale /\
  cls (open_comm (new DateColorScale)) = DateColorScale /\
  setattr "domain_class" Float_class (open_comm (new DateScale))
    = (Raised TraitError, open_comm (new DateScale)) /\
  fst (setattr "domain_class" Date_class (open_comm (new DateColorScale)))
    = Raised TraitError.
Proof.
  assert (Hc : cls (open_comm (new DateScale)) = DateScale) by reflexivity.
  assert (Hc' : cls (open_comm (new DateColorScale)) = DateColorScale) by reflexivity.
  split; [exact Hc|]. split; [exact Hc'|].
  destruct (date_variants_domain_class _ _ Hc Hc') as (_ & _ & _ & _ & _ & H1 & H2).
  split; [exact H1|exact H2].
Defined.

